(** * VolcEngine MaaS adapter ([dsp/modules/volcengine_maas.py])

    A shallow embedding of the adapter class [VolcEngineMaaS]: option
    normalisation ([_prepare_params]), request issuance ([basic_request]),
    the retry wrapper ([request]), the invocation entry point ([__call__])
    and construction ([__init__], [_init_maas]).

    Python dictionaries whose iteration order is observable (the per-call
    keyword arguments) are association lists in insertion order; the
    dictionaries that are only looked up ([self.kwargs], the normalised
    parameters) are [gmap string pyval].  Exceptions are an explicit
    [result] type; the adapter object is a record threaded through every
    call; the remote service, the clock and the standard output are the
    operations of an abstract [world]. *)

From Stdlib Require Import ZArith String Ascii.
From Stdlib Require Import Floats.SpecFloat.
From stdpp Require Import base option list gmap strings fin_maps.

Local Open Scope string_scope.
Local Open Scope list_scope.
Local Open Scope Z_scope.

(** ** Python values *)

(** The option values that can travel through [**kwargs].  Floats are
    IEEE-754 doubles, given by sign, mantissa and exponent
    ([S754_finite s m e] is [(-1)^s * m * 2^e]). *)
#[warnings="-register-all"]
Inductive pyval : Type :=
  | VNone
  | VBool (b : bool)
  | VInt (z : Z)
  | VFloat (f : spec_float)
  | VStr (s : string)
  | VList (l : list pyval).

(** The double nearest to a decimal literal of the source. *)
Definition float_0_0 : spec_float := S754_zero false.
Definition float_0_5 : spec_float := S754_finite false 4503599627370496 (-53).
Definition float_0_7 : spec_float := S754_finite false 6305039478318694 (-53).
Definition float_0_9 : spec_float := S754_finite false 8106479329266893 (-53).

(** [f == 0.0] on doubles: both zeros are equal to [0.0], nothing else is
    (a finite double has a positive mantissa; NaN equals nothing). *)
Definition float_is_zero (f : spec_float) : bool :=
  match f with
  | S754_zero _ => true
  | _ => false
  end.

(** [f > 1] on doubles, compared exactly as Python compares a float with
    an int. *)
Definition float_gt_one (f : spec_float) : bool :=
  match f with
  | S754_infinity false => true
  | S754_finite false m e =>
      if 0 <=? e then 1 <? Z.pos m * 2 ^ e else 2 ^ (- e) <? Z.pos m
  | _ => false
  end.

(** ** Exceptions *)

Inductive exn_class : Type :=
  | MaasException
  | TypeError
  | KeyError
  | AttributeError
  | OtherException (name : string).

(** An exception object (an instance of [Exception]): its class and its
    [message] attribute, when the object has one (the built-in exceptions
    of Python 3 have none). *)
Record exn : Type := Exn {
  exn_cls : exn_class;
  exn_message : option string;
}.

Inductive result (A : Type) : Type :=
  | Return (a : A)
  | Raise (e : exn).
Arguments Return {A} a.
Arguments Raise {A} e.

(** Sequencing: an exception raised by the first computation propagates. *)
Definition bind {A B : Type} (r : result A) (k : A → result B) : result B :=
  match r with
  | Return a => k a
  | Raise e => Raise e
  end.

Notation "'let!' x ':=' r 'in' k" := (bind r (λ x, k))
  (at level 10, x name, r at level 100, k at level 200, only parsing).

(** [n > 1]: defined on numbers (a bool is the int 0 or 1), a
    [TypeError] on everything else. *)
Definition py_gt_one (v : pyval) : result bool :=
  match v with
  | VBool _ => Return false
  | VInt z => Return (1 <? z)
  | VFloat f => Return (float_gt_one f)
  | VNone | VStr _ | VList _ => Raise (Exn TypeError None)
  end.

(** [v == 0.0]: numeric equality on numbers, [False] on everything else. *)
Definition py_eq_zero (v : pyval) : bool :=
  match v with
  | VBool b => negb b
  | VInt z => z =? 0
  | VFloat f => float_is_zero f
  | VNone | VStr _ | VList _ => false
  end.

(** ** The adapter object *)

Inductive ChatRole : Type := USER | ASSISTANT | SYSTEM | FUNCTION.

Record Message : Type := {
  role : ChatRole;
  content : string;
}.

Record Request : Type := {
  parameters : gmap string pyval;
  messages : list Message;
}.

(** The session object built by [MaasService(api_domain, api_region)]
    followed by [set_ak] and [set_sk]. *)
Record MaasService : Type := {
  domain : string;
  region : string;
  ak : option string;
  sk : option string;
}.

(** A Python dict in insertion order, as [items()] lists it. *)
Abbreviation pydict := (list (string * pyval)).

Record HistoryResponse : Type := {
  hr_prompt : string;
  hr_choices : list string;
}.

(** One entry of [self.history]. *)
Record HistoryEntry : Type := {
  h_prompt : string;
  h_response : HistoryResponse;
  h_kwargs : pydict;
  h_raw_kwargs : pydict;
}.

Record VolcEngineMaaS : Type := {
  endpoint_id : string;
  provider : string;
  maas : MaasService;
  kwargs : gmap string pyval;
  history : list HistoryEntry;
}.

(** ** Option normalisation *)

Definition params_mapping : gmap string string :=
  {[ "max_tokens" := "max_output_tokens" ]}.

(** [params_mapping.get(k, k)] *)
Definition mapped_key (k : string) : string :=
  default k (params_mapping !! k).

(** [{params_mapping.get(k, k): v for k, v in parameters.items()}]:
    the items are visited in order and a later item overwrites an earlier
    one stored under the same (renamed) key. *)
Definition renamed (parameters : pydict) : gmap string pyval :=
  foldl (λ d kv, <[mapped_key kv.1 := kv.2]> d) ∅ parameters.

(** [{**self.kwargs, **params}]: the per-call value wins. *)
Definition merged (self : VolcEngineMaaS) (parameters : pydict)
  : gmap string pyval :=
  renamed parameters ∪ kwargs self.

Definition _prepare_params (self : VolcEngineMaaS) (parameters : pydict)
  : result (gmap string pyval) :=
  let params := renamed parameters in
  let params := params ∪ kwargs self in
  (* n = params.pop("n", None) *)
  let n := default VNone (params !! "n") in
  let params := delete "n" params in
  let! params :=
    match n with
    | VNone => Return params
    | _ =>
        let! gt := py_gt_one n in
        if gt then
          match params !! "temperature" with
          | None => Raise (Exn KeyError None)
          | Some t =>
              if py_eq_zero t
              then Return (<["temperature" := VFloat float_0_7]> params)
              else Return params
          end
        else Return params
    end in
  Return (filter (λ kv, kv.1 ∈ dom (kwargs self)) params).

(** ** Construction *)

(** [os.environ] *)
Abbreviation environ := (gmap string string).

(** [a or b] on an optional string [a]: [None] and the empty string are
    falsy.  [or_str] is the case of a string literal [b], [or_else] the
    case of [os.environ.get(...)], which may be [None]. *)
Definition or_str (a : option string) (b : string) : string :=
  match a with
  | Some s => if decide (s = "") then b else s
  | None => b
  end.

Definition or_else (a : option string) (b : option string) : option string :=
  match a with
  | Some s => if decide (s = "") then b else Some s
  | None => b
  end.

Definition _init_maas (api_ak api_sk api_domain api_region : option string)
  (os_environ : environ) : MaasService :=
  let api_domain :=
    or_str api_domain "maas-api.ml-platform-cn-beijing.volces.com" in
  let api_region := or_str api_region "cn-beijing" in
  let api_ak := or_else api_ak (os_environ !! "VOLC_ACCESSKEY") in
  let api_sk := or_else api_sk (os_environ !! "VOLC_SECRETKEY") in
  {| domain := api_domain; region := api_region; ak := api_ak; sk := api_sk |}.

Definition default_kwargs : gmap string pyval :=
  <["max_prompt_tokens" := VInt 32768]>
  (<["top_k" := VInt 0]>
  (<["top_p" := VFloat float_0_9]>
  (<["temperature" := VFloat float_0_7]>
  (<["min_new_tokens" := VInt 1]>
  (<["max_new_tokens" := VInt 1000]> ∅))))).

(** [self.kwargs.update(kwargs)] *)
Definition dict_update (d : gmap string pyval) (other : pydict)
  : gmap string pyval :=
  foldl (λ d kv, <[kv.1 := kv.2]> d) d other.

(** [super().__init__(endpoint_id)] comes first in the source; the
    attributes it may set ([kwargs], [provider], [history]) are assigned
    again below. *)
Definition __init__ (endpoint : string)
  (api_ak api_sk api_domain api_region : option string)
  (overrides : pydict) (os_environ : environ) : VolcEngineMaaS :=
  {| endpoint_id := endpoint;
     provider := "volcengine_maas";
     maas := _init_maas api_ak api_sk api_domain api_region os_environ;
     kwargs := dict_update default_kwargs overrides;
     history := [] |}.

(** ** The retry handlers *)

(** [needle in hay] on strings. *)
Fixpoint str_in (needle hay : string) : bool :=
  if String.prefix needle hay then true
  else match hay with
       | EmptyString => false
       | String _ hay' => str_in needle hay'
       end.

(** The library calls the give-up predicate on the exception object:
    [details.message] is an [AttributeError] on an object that has no
    such attribute. *)
Definition giveup_hdlr (details : exn) : result bool :=
  match exn_message details with
  | None => Raise (Exn AttributeError None)
  | Some message =>
      if str_in "rate limits" message then Return false else Return true
  end.

(** What [backoff_hdlr] reads from the [details] it is given. *)
Record backoff_details : Type := {
  d_wait : Z;
  d_tries : nat;
  d_target : string;
  d_kwargs : pydict;
}.

(** The response of the remote chat call: [response.choice.message.content]
    is the completion text. *)
Record Choice : Type := { message : Message }.
Record Response : Type := { choice : Choice }.

(** ** Calls *)

Section Adapter.

(** Everything outside the adapter: the remote service, the wall clock
    (in milliseconds), the random source of the jitter and the standard
    output.  The exceptions of the model are instances of [Exception],
    the class the decorator of [request] names; [KeyboardInterrupt] and
    the like are not modelled. *)
Variable world : Type.
(** [self.maas.chat(endpoint_id, req)]: the remote call reads the session
    object and answers with a response or an exception. *)
Variable maas_chat :
  MaasService → string → Request → world → result Response * world.
(** [datetime.datetime.now()] *)
Variable now : world → Z.
(** [time.sleep(seconds)] *)
Variable sleep : Z → world → world.
(** [random.uniform(0, value)] *)
Variable random_uniform : Z → world → Z * world.
(** [print] of the notice built from the details *)
Variable print : backoff_details → world → world.

Definition backoff_hdlr (details : backoff_details) (w : world) : world :=
  print details w.

(** [self.history.append(history)] *)
Definition history_append (self : VolcEngineMaaS) (entry : HistoryEntry)
  : VolcEngineMaaS :=
  {| endpoint_id := endpoint_id self;
     provider := provider self;
     maas := maas self;
     kwargs := kwargs self;
     history := history self ++ [entry] |}.

Definition basic_request (self : VolcEngineMaaS) (prompt : string)
  (call_kwargs : pydict) (w : world)
  : result (list string) * VolcEngineMaaS * world :=
  let raw_kwargs := call_kwargs in
  match _prepare_params self raw_kwargs with
  | Raise e => (Raise e, self, w)
  | Return params =>
      let req :=
        {| parameters := params;
           messages := [ {| role := USER; content := prompt |} ] |} in
      match maas_chat (maas self) (endpoint_id self) req w with
      | (Raise e, w') =>
          match exn_cls e with
          | MaasException => (Raise e, self, w')   (* [raise e] *)
          | _ => (Raise e, self, w')               (* not caught *)
          end
      | (Return response, w') =>
          let text := content (message (choice response)) in
          let entry :=
            {| h_prompt := prompt;
               h_response := {| hr_prompt := prompt; hr_choices := [text] |};
               h_kwargs := call_kwargs;
               h_raw_kwargs := raw_kwargs |} in
          (Return [text], history_append self entry, w')
      end
  end.

(** [max_time=1000] seconds. *)
Definition max_time : Z := 1000 * 1000.

(** [backoff.expo]: 1, 2, 4, ... seconds. *)
Definition expo (n : nat) : Z := 1000 * 2 ^ Z.of_nat n.

(** Modelled from the spec: the retry primitive [backoff.on_exception]
    is a library that is not part of the sources.  The loop follows the
    retry policy of the spec with the arguments of the decorator on
    [request]: the target is called; on success its result is returned;
    on a failure the give-up rule is asked, and the failure propagates
    when the rule says so or when the time elapsed at the start of the
    attempt has reached the ceiling; otherwise the notice is printed,
    the loop sleeps for the (jittered) exponential wait, cut to the
    time that remains, and tries again.  [fuel] bounds the number of
    attempts the model follows: the outcome is [None] when the loop is
    still running after that many. *)
Fixpoint retry (fuel : nat) (tries : nat) (start : Z)
  (self : VolcEngineMaaS) (prompt : string) (call_kwargs : pydict)
  (w : world)
  : option (result (list string)) * VolcEngineMaaS * world :=
  match fuel with
  | O => (None, self, w)
  | S fuel' =>
      let tries := S tries in
      let elapsed := now w - start in
      match basic_request self prompt call_kwargs w with
      | (Return ret, self', w') => (Some (Return ret), self', w')
      | (Raise e, self', w') =>
          match giveup_hdlr e with
          | Raise e' => (Some (Raise e'), self', w')
          | Return giveup =>
              if giveup || (max_time <=? elapsed)
              then (Some (Raise e), self', w')
              else
                let '(value, w') := random_uniform (expo (pred tries)) w' in
                let seconds := Z.min value (max_time - elapsed) in
                let w' :=
                  backoff_hdlr
                    {| d_wait := seconds; d_tries := tries;
                       d_target := "request"; d_kwargs := call_kwargs |}
                    w' in
                let w' := sleep seconds w' in
                retry fuel' tries start self' prompt call_kwargs w'
          end
      end
  end.

(** [request], under [@backoff.on_exception(backoff.expo, (Exception),
    max_time=1000, on_backoff=backoff_hdlr, giveup=giveup_hdlr)]. *)
Definition request (fuel : nat) (self : VolcEngineMaaS) (prompt : string)
  (call_kwargs : pydict) (w : world)
  : option (result (list string)) * VolcEngineMaaS * world :=
  retry fuel 0 (now w) self prompt call_kwargs w.

Definition __call__ (fuel : nat) (self : VolcEngineMaaS) (prompt : string)
  (only_completed : bool) (return_sorted : bool) (call_kwargs : pydict)
  (w : world)
  : option (result (list string)) * VolcEngineMaaS * world :=
  request fuel self prompt call_kwargs w.

End Adapter.

(** What a call must leave alone: everything but the history, which only
    grows at its end. *)
Definition same_configuration (self self' : VolcEngineMaaS) : Prop :=
  endpoint_id self' = endpoint_id self ∧
  kwargs self' = kwargs self ∧
  provider self' = provider self ∧
  maas self' = maas self ∧
  ∃ added, history self' = history self ++ added.

(** ** A scripted world

    A concrete instance of the outside world, to run the calls on given
    inputs: the remote service answers from a list of prepared replies
    and every call takes [latency] milliseconds; the jitter always draws
    the full wait. *)
Record script_world : Type := {
  clock : Z;
  replies : list (result Response);
  stdout : list backoff_details;
}.

Definition script_chat (latency : Z) (svc : MaasService) (endpoint : string)
  (req : Request) (w : script_world) : result Response * script_world :=
  match replies w with
  | [] =>
      (Raise (Exn MaasException (Some "service unavailable")),
       {| clock := clock w + latency; replies := []; stdout := stdout w |})
  | r :: rest =>
      (r, {| clock := clock w + latency; replies := rest;
             stdout := stdout w |})
  end.

Definition script_now (w : script_world) : Z := clock w.

Definition script_sleep (seconds : Z) (w : script_world) : script_world :=
  {| clock := clock w + Z.max 0 seconds; replies := replies w;
     stdout := stdout w |}.

Definition script_random_uniform (value : Z) (w : script_world)
  : Z * script_world :=
  (value, w).

Definition script_print (details : backoff_details) (w : script_world)
  : script_world :=
  {| clock := clock w; replies := replies w;
     stdout := stdout w ++ [details] |}.

(** A service that is always over its rate limits. *)
Definition busy_chat (latency : Z) (svc : MaasService) (endpoint : string)
  (req : Request) (w : script_world) : result Response * script_world :=
  (Raise (Exn MaasException (Some "request exceeds rate limits")),
   {| clock := clock w + latency; replies := replies w; stdout := stdout w |}).

Definition completion (text : string) : result Response :=
  Return {| choice := {| message := {| role := ASSISTANT;
                                        content := text |} |} |}.

Definition rate_limited : result Response :=
  Raise (Exn MaasException (Some "request exceeds rate limits")).

Definition bad_credentials : result Response :=
  Raise (Exn MaasException (Some "invalid access key")).

(** * Properties *)

(** ** Option normalisation *)

Lemma mapped_key_max_tokens : mapped_key "max_tokens" = "max_output_tokens".
Proof. reflexivity. Qed.

Lemma mapped_key_other (k : string) : k ≠ "max_tokens" → mapped_key k = k.
Proof.
  intros Hk. unfold mapped_key, params_mapping.
  by rewrite lookup_singleton_ne.
Qed.

Lemma renamed_snoc (l : pydict) (k : string) (v : pyval) :
  renamed (l ++ [(k, v)]) = <[mapped_key k := v]> (renamed l).
Proof. unfold renamed. by rewrite foldl_app. Qed.

Lemma renamed_app_lookup (l1 l2 : pydict) (k : string) :
  Forall (λ kv, mapped_key kv.1 ≠ k) l2 →
  renamed (l1 ++ l2) !! k = renamed l1 !! k.
Proof.
  induction l2 as [|[k2 v2] l2 IH] using rev_ind; intros Hall.
  - by rewrite app_nil_r.
  - apply Forall_app in Hall as [Hl2 Hlast].
    rewrite Forall_singleton in Hlast. simpl in Hlast.
    rewrite app_assoc, renamed_snoc, lookup_insert_ne by done.
    by apply IH.
Qed.

(** A key of the renamed mapping is the new name of a supplied key. *)
Lemma renamed_lookup_is_Some (l : pydict) (k : string) :
  is_Some (renamed l !! k) → ∃ k0, k0 ∈ l.*1 ∧ mapped_key k0 = k.
Proof.
  induction l as [|[k2 v2] l IH] using rev_ind; intros Hk.
  - unfold renamed in Hk. simpl in Hk. rewrite lookup_empty in Hk.
    by destruct Hk.
  - rewrite renamed_snoc in Hk. rewrite fmap_app.
    destruct (decide (mapped_key k2 = k)) as [Heq|Hne].
    + exists k2. split; [|done]. apply elem_of_app. right.
      apply list_elem_of_here.
    + rewrite lookup_insert_ne in Hk by done.
      destruct (IH Hk) as (k0 & Hin & Hmap). exists k0. split; [|done].
      apply elem_of_app. by left.
Qed.

(** Nothing is ever stored under the old name. *)
Lemma renamed_max_tokens (l : pydict) : renamed l !! "max_tokens" = None.
Proof.
  destruct (renamed l !! "max_tokens") eqn:E; [|done].
  destruct (renamed_lookup_is_Some l "max_tokens") as (k0 & _ & Hmap);
    [by eexists|].
  destruct (decide (k0 = "max_tokens")) as [->|Hne].
  - by rewrite mapped_key_max_tokens in Hmap.
  - by rewrite mapped_key_other in Hmap.
Qed.

(** The mapping that reaches the final filter is the merged options
    without [n], with the temperature forced or not. *)
Lemma prepare_params_inv (self : VolcEngineMaaS) (parameters : pydict)
  (out : gmap string pyval) :
  _prepare_params self parameters = Return out →
  ∃ params,
    (params = delete "n" (merged self parameters) ∨
     params = <["temperature" := VFloat float_0_7]>
                (delete "n" (merged self parameters))) ∧
    out = filter (λ kv, kv.1 ∈ dom (kwargs self)) params.
Proof.
  unfold _prepare_params, merged.
  set (m := renamed parameters ∪ kwargs self).
  destruct (default VNone (m !! "n")) as [|b|z|f|s|l]; simpl;
    try (intros [= <-]; eauto; fail); try discriminate.
  all: match goal with |- context [if ?c then _ else _] => destruct c end;
    simpl; try (intros [= <-]; eauto; fail).
  all: destruct (delete "n" m !! "temperature") as [t|]; simpl;
    try discriminate.
  all: destruct (py_eq_zero t); simpl; intros [= <-]; eauto.
Qed.

(** Outside [temperature], the output is the merged options restricted
    to the default-options keys other than [n]. *)
Lemma prepare_params_lookup (self : VolcEngineMaaS) (parameters : pydict)
  (out : gmap string pyval) (k : string) :
  _prepare_params self parameters = Return out →
  k ≠ "temperature" → k ≠ "n" → k ∈ dom (kwargs self) →
  out !! k = merged self parameters !! k.
Proof.
  intros (params & Hadj & ->)%prepare_params_inv Htemp Hn Hdom.
  assert (params !! k = merged self parameters !! k) as Hk.
  { destruct Hadj as [-> | ->].
    - by rewrite lookup_delete_ne.
    - by rewrite lookup_insert_ne, lookup_delete_ne. }
  rewrite <- Hk. destruct (params !! k) as [v|] eqn:E.
  - by apply map_lookup_filter_Some.
  - apply map_lookup_filter_None. left. done.
Qed.

Lemma prepare_params_dom (self : VolcEngineMaaS) (parameters : pydict)
  (out : gmap string pyval) (k : string) :
  _prepare_params self parameters = Return out →
  is_Some (out !! k) → k ∈ dom (kwargs self) ∧ k ≠ "n".
Proof.
  intros (params & Hadj & ->)%prepare_params_inv [v Hv].
  apply map_lookup_filter_Some in Hv as [Hv Hdom]. split; [done|].
  intros ->. destruct Hadj as [-> | ->].
  - by rewrite lookup_delete_eq in Hv.
  - by rewrite lookup_insert_ne, lookup_delete_eq in Hv.
Qed.

(** C2: every key of the mapping returned by [_prepare_params] is a key
    of the default options [self.kwargs], and [n] is never one of the
    returned keys. *)
Theorem prepare_params_keys_subset (self : VolcEngineMaaS)
  (parameters : pydict) (out : gmap string pyval) :
  _prepare_params self parameters = Return out →
  dom out ⊆ dom (kwargs self) ∧ "n" ∉ dom out.
Proof.
  intros Hout. split.
  - intros k Hk%elem_of_dom. by destruct (prepare_params_dom _ _ _ _ Hout Hk).
  - intros Hn%elem_of_dom. by destruct (prepare_params_dom _ _ _ _ Hout Hn).
Qed.

Lemma dict_update_dom (d : gmap string pyval) (other : pydict) (k : string) :
  k ∈ dom d → k ∈ dom (dict_update d other).
Proof.
  revert d. induction other as [|[k2 v2] other IH]; intros d Hk; [done|].
  simpl. apply IH. rewrite dom_insert. apply elem_of_union. by right.
Qed.

(** Construction always leaves a [temperature] among the default options. *)
Lemma init_has_temperature (endpoint : string)
  (api_ak api_sk api_domain api_region : option string)
  (overrides : pydict) (os_environ : environ) :
  "temperature" ∈
    dom (kwargs (__init__ endpoint api_ak api_sk api_domain api_region
                   overrides os_environ)).
Proof.
  simpl. apply dict_update_dom. apply elem_of_dom. by eexists.
Qed.

Lemma filter_dom_lookup (d params : gmap string pyval) (k : string) :
  k ∈ dom d →
  filter (λ kv : string * pyval, kv.1 ∈ dom d) params !! k = params !! k.
Proof.
  intros Hk. destruct (params !! k) as [v|] eqn:E.
  - by apply map_lookup_filter_Some.
  - apply map_lookup_filter_None. by left.
Qed.

(** With [n] an integer above 1 and a merged temperature equal to [0.0],
    the temperature is forced. *)
Lemma prepare_params_forced (self : VolcEngineMaaS) (parameters : pydict)
  (z : Z) (t : pyval) :
  merged self parameters !! "n" = Some (VInt z) → 1 < z →
  merged self parameters !! "temperature" = Some t → py_eq_zero t = true →
  _prepare_params self parameters =
    Return (filter (λ kv, kv.1 ∈ dom (kwargs self))
              (<["temperature" := VFloat float_0_7]>
                 (delete "n" (merged self parameters)))).
Proof.
  unfold _prepare_params, merged. intros Hn Hz Ht Hzero.
  rewrite Hn. simpl. apply Z.ltb_lt in Hz. rewrite Hz.
  rewrite lookup_delete_ne by done. rewrite Ht, Hzero. reflexivity.
Qed.

Lemma prepare_params_kept (self : VolcEngineMaaS) (parameters : pydict)
  (z : Z) (t : pyval) :
  merged self parameters !! "n" = Some (VInt z) →
  merged self parameters !! "temperature" = Some t → py_eq_zero t = false →
  _prepare_params self parameters =
    Return (filter (λ kv, kv.1 ∈ dom (kwargs self))
              (delete "n" (merged self parameters))).
Proof.
  unfold _prepare_params, merged. intros Hn Ht Hzero.
  rewrite Hn. simpl. destruct (1 <? z); [|done].
  rewrite lookup_delete_ne by done. by rewrite Ht, Hzero.
Qed.

Lemma prepare_params_no_n (self : VolcEngineMaaS) (parameters : pydict) :
  merged self parameters !! "n" = None →
  _prepare_params self parameters =
    Return (filter (λ kv, kv.1 ∈ dom (kwargs self))
              (delete "n" (merged self parameters))).
Proof.
  unfold _prepare_params, merged. intros Hn. by rewrite Hn.
Qed.


Lemma prepare_params_type_error (self : VolcEngineMaaS) (parameters : pydict)
  (s : string) :
  merged self parameters !! "n" = Some (VStr s) →
  _prepare_params self parameters = Raise (Exn TypeError None).
Proof.
  unfold _prepare_params, merged. intros Hn. by rewrite Hn.
Qed.

(** C3: on an adapter built by [__init__], with [n=2] and a merged
    temperature of [0.0] the output temperature is exactly [0.7]; with
    [n=2] and a merged temperature of [0.5] it stays [0.5]; without an
    [n] key the merged temperature reaches the output unchanged, whatever
    its value. *)
Theorem prepare_params_temperature (endpoint : string)
  (api_ak api_sk api_domain api_region : option string)
  (overrides : pydict) (os_environ : environ) (parameters : pydict) :
  let self := __init__ endpoint api_ak api_sk api_domain api_region
                overrides os_environ in
  let m := merged self parameters in
  (m !! "n" = Some (VInt 2) → m !! "temperature" = Some (VFloat float_0_0) →
   ∃ out, _prepare_params self parameters = Return out ∧
          out !! "temperature" = Some (VFloat float_0_7)) ∧
  (m !! "n" = Some (VInt 2) → m !! "temperature" = Some (VFloat float_0_5) →
   ∃ out, _prepare_params self parameters = Return out ∧
          out !! "temperature" = Some (VFloat float_0_5)) ∧
  (m !! "n" = None →
   ∃ out t, _prepare_params self parameters = Return out ∧
            m !! "temperature" = Some t ∧ out !! "temperature" = Some t).
Proof.
  intros self m.
  pose proof (init_has_temperature endpoint api_ak api_sk api_domain
                api_region overrides os_environ) as Hdom.
  fold self in Hdom. split; [|split].
  - intros Hn Ht. eexists. split.
    + by apply (prepare_params_forced self parameters 2 (VFloat float_0_0)).
    + rewrite filter_dom_lookup by done. apply lookup_insert_eq.
  - intros Hn Ht. eexists. split.
    + by apply (prepare_params_kept self parameters 2 (VFloat float_0_5)).
    + rewrite filter_dom_lookup by done. by rewrite lookup_delete_ne.
  - intros Hn.
    assert (is_Some (m !! "temperature")) as [t Ht].
    { apply elem_of_dom. unfold m, merged. rewrite dom_union.
      apply elem_of_union. by right. }
    exists (filter (λ kv, kv.1 ∈ dom (kwargs self)) (delete "n" m)), t.
    split; [by apply prepare_params_no_n|]. split; [done|].
    rewrite filter_dom_lookup by done. by rewrite lookup_delete_ne.
Qed.

(** C1, amended: when the caller supplies [max_tokens] with value [v]
    and no [max_output_tokens] entry after it, the returned mapping has
    [max_output_tokens] with value [v] whenever [max_output_tokens] is a
    key of the default options, and has no [max_tokens] key whenever
    [max_tokens] is not a key of the default options. *)
Theorem prepare_params_max_tokens (self : VolcEngineMaaS)
  (before after : pydict) (v : pyval) (out : gmap string pyval) :
  Forall (λ kv, kv.1 ≠ "max_tokens" ∧ kv.1 ≠ "max_output_tokens") after →
  _prepare_params self (before ++ ("max_tokens", v) :: after) = Return out →
  ("max_output_tokens" ∈ dom (kwargs self) →
   out !! "max_output_tokens" = Some v) ∧
  ("max_tokens" ∉ dom (kwargs self) → out !! "max_tokens" = None).
Proof.
  intros Hafter Hout. split.
  - intros Hdom.
    rewrite (prepare_params_lookup _ _ _ _ Hout) by done.
    unfold merged. apply lookup_union_Some_l.
    rewrite (app_assoc before [("max_tokens", v)] after : before ++ ("max_tokens", v) :: after = _).
    rewrite renamed_app_lookup.
    + rewrite renamed_snoc, mapped_key_max_tokens. apply lookup_insert_eq.
    + eapply Forall_impl; [exact Hafter|]. intros [k x] [Hk1 Hk2]. simpl in *.
      by rewrite mapped_key_other.
  - intros Hdom. destruct (out !! "max_tokens") eqn:E; [|done].
    destruct (prepare_params_dom _ _ _ "max_tokens" Hout); [by eexists|done].
Qed.

(** X18: a [max_tokens] key of the returned mapping is the adapter's own
    default of that name, never the value of the caller. *)
Lemma prepare_params_max_tokens_default (self : VolcEngineMaaS)
  (parameters : pydict) (out : gmap string pyval) :
  _prepare_params self parameters = Return out →
  out !! "max_tokens" = kwargs self !! "max_tokens".
Proof.
  intros Hout. destruct (kwargs self !! "max_tokens") as [x|] eqn:Hdef.
  - rewrite (prepare_params_lookup _ _ _ "max_tokens" Hout);
      [|done|done|by apply elem_of_dom].
    unfold merged. rewrite lookup_union_r by apply renamed_max_tokens. done.
  - destruct (out !! "max_tokens") eqn:E; [|done].
    destruct (prepare_params_dom _ _ _ "max_tokens" Hout) as [Hdom _];
      [by eexists|].
    apply elem_of_dom in Hdom as [x Hx]. congruence.
Qed.

(** C1 as stated fails on the code: with the built-in defaults the
    renamed option is filtered out; a [max_tokens] default given at
    construction is returned under its own name; and a later
    [max_output_tokens] of the caller overwrites the renamed value. *)
Lemma prepare_params_max_tokens_counterexample :
  (∃ out,
     _prepare_params (__init__ "ep" None None None None [] ∅)
       [("max_tokens", VInt 100)] = Return out ∧
     out !! "max_output_tokens" = None) ∧
  (∃ out,
     _prepare_params
       (__init__ "ep" None None None None [("max_tokens", VInt 50)] ∅)
       [("max_tokens", VInt 100)] = Return out ∧
     out !! "max_tokens" = Some (VInt 50)) ∧
  (∃ out,
     _prepare_params
       (__init__ "ep" None None None None [("max_output_tokens", VInt 50)] ∅)
       [("max_tokens", VInt 100); ("max_output_tokens", VInt 200)]
       = Return out ∧
     out !! "max_output_tokens" = Some (VInt 200)).
Proof.
  split; [|split]; eexists; (split; [reflexivity|]); vm_compute; reflexivity.
Qed.

Lemma prepare_params_max_tokens_witness :
  let self :=
    __init__ "ep" None None None None [("max_output_tokens", VInt 50)] ∅ in
  let out :=
    <["max_output_tokens" := VInt 100]>
      (<["top_k" := VInt 3]> default_kwargs) in
  _prepare_params self [("max_tokens", VInt 100); ("top_k", VInt 3)]
    = Return out ∧
  out !! "max_output_tokens" = Some (VInt 100) ∧
  out !! "max_tokens" = None.
Proof.
  intros self out.
  assert (_prepare_params self
            ([] ++ ("max_tokens", VInt 100) :: [("top_k", VInt 3)])
          = Return out) as Hrun by (vm_compute; reflexivity).
  split; [exact Hrun|].
  destruct (prepare_params_max_tokens self [] [("top_k", VInt 3)]
              (VInt 100) out) as [Hnew Hold].
  - repeat constructor; simpl; discriminate.
  - exact Hrun.
  - split.
    + apply Hnew. apply elem_of_dom. eexists. vm_compute. reflexivity.
    + apply Hold. apply not_elem_of_dom. vm_compute. reflexivity.
Defined.

Lemma prepare_params_keys_subset_witness :
  let self := __init__ "ep" None None None None [("n", VInt 3)] ∅ in
  let out := <["top_k" := VInt 5]> default_kwargs in
  _prepare_params self [("user", VStr "me"); ("top_k", VInt 5)]
    = Return out ∧
  dom out ⊆ dom (kwargs self) ∧ "n" ∉ dom out.
Proof.
  intros self out.
  assert (_prepare_params self [("user", VStr "me"); ("top_k", VInt 5)]
          = Return out) as Hrun by (vm_compute; reflexivity).
  split; [exact Hrun|].
  exact (prepare_params_keys_subset self _ out Hrun).
Defined.

Lemma prepare_params_temperature_witness :
  let self := __init__ "ep" None None None None [] ∅ in
  (∃ out,
     _prepare_params self
       [("n", VInt 2); ("temperature", VFloat float_0_0)] = Return out ∧
     out !! "temperature" = Some (VFloat float_0_7)) ∧
  (∃ out,
     _prepare_params self
       [("n", VInt 2); ("temperature", VFloat float_0_5)] = Return out ∧
     out !! "temperature" = Some (VFloat float_0_5)) ∧
  (∃ out t,
     _prepare_params self [("temperature", VStr "warm")] = Return out ∧
     merged self [("temperature", VStr "warm")] !! "temperature" = Some t ∧
     out !! "temperature" = Some t).
Proof.
  intros self. split; [|split].
  - apply (prepare_params_temperature "ep" None None None None [] ∅
             [("n", VInt 2); ("temperature", VFloat float_0_0)]);
      vm_compute; reflexivity.
  - apply (prepare_params_temperature "ep" None None None None [] ∅
             [("n", VInt 2); ("temperature", VFloat float_0_5)]);
      vm_compute; reflexivity.
  - apply (prepare_params_temperature "ep" None None None None [] ∅
             [("temperature", VStr "warm")]);
      vm_compute; reflexivity.
Defined.

(** ** Calls *)

Lemma same_configuration_refl (self : VolcEngineMaaS) :
  same_configuration self self.
Proof.
  repeat split. exists []. by rewrite app_nil_r.
Qed.

Lemma same_configuration_trans (s1 s2 s3 : VolcEngineMaaS) :
  same_configuration s1 s2 → same_configuration s2 s3 →
  same_configuration s1 s3.
Proof.
  intros (He1 & Hk1 & Hp1 & Hm1 & a1 & Hh1) (He2 & Hk2 & Hp2 & Hm2 & a2 & Hh2).
  repeat split; try congruence.
  exists (a1 ++ a2). by rewrite Hh2, Hh1, app_assoc.
Qed.

Lemma same_configuration_append (self : VolcEngineMaaS)
  (entry : HistoryEntry) :
  same_configuration self (history_append self entry).
Proof. repeat split. by exists [entry]. Qed.

Section CallFacts.

Context {world : Type}.
Variable maas_chat :
  MaasService → string → Request → world → result Response * world.
Variable now : world → Z.
Variable sleep : Z → world → world.
Variable random_uniform : Z → world → Z * world.
Variable print : backoff_details → world → world.

Local Abbreviation basic_request := (basic_request world maas_chat).
Local Abbreviation retry :=
  (retry world maas_chat now sleep random_uniform print).
Local Abbreviation request :=
  (request world maas_chat now sleep random_uniform print).
Local Abbreviation __call__ :=
  (__call__ world maas_chat now sleep random_uniform print).

(** The request built by [basic_request]. *)
Local Abbreviation chat_request params prompt :=
  {| parameters := params;
     messages := [ {| role := USER; content := prompt |} ] |}.

(** The three ways through [basic_request]. *)
Lemma basic_request_prepare_raises self prompt call_kwargs w e :
  _prepare_params self call_kwargs = Raise e →
  basic_request self prompt call_kwargs w = (Raise e, self, w).
Proof. unfold basic_request. by intros ->. Qed.

Lemma basic_request_chat_raises self prompt call_kwargs w params e w' :
  _prepare_params self call_kwargs = Return params →
  maas_chat (maas self) (endpoint_id self) (chat_request params prompt) w
    = (Raise e, w') →
  basic_request self prompt call_kwargs w = (Raise e, self, w').
Proof.
  unfold basic_request. intros -> ->. by destruct (exn_cls e).
Qed.

Lemma basic_request_returns self prompt call_kwargs w params response w' :
  _prepare_params self call_kwargs = Return params →
  maas_chat (maas self) (endpoint_id self) (chat_request params prompt) w
    = (Return response, w') →
  basic_request self prompt call_kwargs w =
    (Return [content (message (choice response))],
     history_append self
       {| h_prompt := prompt;
          h_response :=
            {| hr_prompt := prompt;
               hr_choices := [content (message (choice response))] |};
          h_kwargs := call_kwargs;
          h_raw_kwargs := call_kwargs |},
     w').
Proof. unfold basic_request. by intros -> ->. Qed.

(** Every run of [basic_request] is one of the three: it raises and
    leaves the adapter as it was, or the remote call returned a response
    and one entry was appended. *)
Lemma basic_request_inv self prompt call_kwargs w r self' w' :
  basic_request self prompt call_kwargs w = (r, self', w') →
  (∃ e, r = Raise e ∧ self' = self) ∨
  (∃ params response,
     _prepare_params self call_kwargs = Return params ∧
     maas_chat (maas self) (endpoint_id self) (chat_request params prompt) w
       = (Return response, w') ∧
     let text := content (message (choice response)) in
     r = Return [text] ∧
     self' = history_append self
               {| h_prompt := prompt;
                  h_response :=
                    {| hr_prompt := prompt; hr_choices := [text] |};
                  h_kwargs := call_kwargs;
                  h_raw_kwargs := call_kwargs |}).
Proof.
  unfold basic_request.
  destruct (_prepare_params self call_kwargs) as [params|e].
  - destruct (maas_chat _ _ _ w) as [[response|e] w1] eqn:Hchat.
    + intros [= <- <- <-]. right. by exists params, response.
    + destruct (exn_cls e); intros [= <- <- <-]; left; by eexists.
  - intros [= <- <- <-]. left. by eexists.
Qed.

(** C5: after a successful [basic_request] with prompt [p] the history
    is one entry longer, its last entry has prompt [p] and choices the
    one-element list of the completion text of the response, and that
    list is the value returned. *)
Theorem basic_request_success self prompt call_kwargs w ret self' w' :
  basic_request self prompt call_kwargs w = (Return ret, self', w') →
  ∃ params response entry,
    maas_chat (maas self) (endpoint_id self) (chat_request params prompt) w
      = (Return response, w') ∧
    ret = [content (message (choice response))] ∧
    history self' = history self ++ [entry] ∧
    length (history self') = S (length (history self)) ∧
    last (history self') = Some entry ∧
    h_prompt entry = prompt ∧
    hr_choices (h_response entry) = ret.
Proof.
  intros [(e & [=] & _) | (params & response & _ & Hchat & [= ->] & ->)]
    %basic_request_inv.
  exists params, response. eexists. simpl. repeat split; [done|..].
  - rewrite length_app. simpl. lia.
  - apply last_snoc.
Qed.

(** C6: when the remote chat call raises, [basic_request] raises the
    same exception and leaves the adapter, its history included, as it
    was. *)
Theorem basic_request_failure self prompt call_kwargs w params e w' :
  _prepare_params self call_kwargs = Return params →
  maas_chat (maas self) (endpoint_id self) (chat_request params prompt) w
    = (Raise e, w') →
  ∃ self',
    basic_request self prompt call_kwargs w = (Raise e, self', w') ∧
    history self' = history self ∧ self' = self.
Proof.
  intros Hparams Hchat. exists self. split; [|done].
  by eapply basic_request_chat_raises.
Qed.

(** C10: the entries that [basic_request] appends carry the per-call
    keyword arguments, as supplied, in both [kwargs] and [raw_kwargs]. *)
Theorem basic_request_history_kwargs self prompt call_kwargs w :
  ∃ added,
    history (basic_request self prompt call_kwargs w).1.2
      = history self ++ added ∧
    Forall (λ entry, h_kwargs entry = h_raw_kwargs entry ∧
                     h_kwargs entry = call_kwargs ∧
                     h_raw_kwargs entry = call_kwargs) added.
Proof.
  destruct (basic_request self prompt call_kwargs w) as [[r self'] w'] eqn:E.
  apply basic_request_inv in E
    as [(e & _ & ->) | (params & response & _ & _ & _ & ->)]; simpl.
  - exists []. split; [by rewrite app_nil_r | constructor].
  - eexists [_]. split; [done|]. by repeat constructor.
Qed.

Lemma basic_request_same_configuration self prompt call_kwargs w :
  same_configuration self (basic_request self prompt call_kwargs w).1.2.
Proof.
  destruct (basic_request self prompt call_kwargs w) as [[r self'] w'] eqn:E.
  apply basic_request_inv in E
    as [(e & _ & ->) | (params & response & _ & _ & _ & ->)]; simpl.
  - apply same_configuration_refl.
  - apply same_configuration_append.
Qed.

Lemma retry_same_configuration fuel tries start self prompt call_kwargs w :
  same_configuration self
    (retry fuel tries start self prompt call_kwargs w).1.2.
Proof.
  revert tries self w. induction fuel as [|fuel IH]; intros tries self w.
  - apply same_configuration_refl.
  - simpl.
    pose proof (basic_request_same_configuration self prompt call_kwargs w)
      as Hstep.
    destruct (basic_request self prompt call_kwargs w) as [[[ret|e] self1] w1];
      simpl in Hstep; [done|].
    destruct (giveup_hdlr e) as [giveup|e']; [|done].
    destruct (giveup || (max_time <=? now w - start)); [done|].
    destruct (random_uniform _ w1) as [value w2].
    eapply same_configuration_trans; [exact Hstep|apply IH].
Qed.

(** C9: [basic_request], [request] and [__call__] leave the endpoint
    identifier, the default options, the provider label and the session
    object as they were; the history only grows at its end. *)
Theorem calls_same_configuration fuel self prompt only_completed
  return_sorted call_kwargs w :
  same_configuration self (basic_request self prompt call_kwargs w).1.2 ∧
  same_configuration self (request fuel self prompt call_kwargs w).1.2 ∧
  same_configuration self
    (__call__ fuel self prompt only_completed return_sorted call_kwargs w).1.2.
Proof.
  split; [apply basic_request_same_configuration|].
  split; apply retry_same_configuration.
Qed.

(** C8: the flags [only_completed] and [return_sorted] have no effect:
    any values give the result, the adapter and the world that the
    defaults ([True], [False]) give. *)
Theorem call_flags_inert fuel self prompt only_completed return_sorted
  call_kwargs w :
  __call__ fuel self prompt only_completed return_sorted call_kwargs w =
  __call__ fuel self prompt true false call_kwargs w.
Proof. reflexivity. Qed.


Lemma giveup_hdlr_rate_limited e message :
  exn_message e = Some message → str_in "rate limits" message = true →
  giveup_hdlr e = Return false.
Proof. unfold giveup_hdlr. by intros -> ->. Qed.

Lemma giveup_hdlr_other e message :
  exn_message e = Some message → str_in "rate limits" message = false →
  giveup_hdlr e = Return true.
Proof. unfold giveup_hdlr. by intros -> ->. Qed.

Lemma giveup_hdlr_no_message e :
  exn_message e = None → giveup_hdlr e = Raise (Exn AttributeError None).
Proof. unfold giveup_hdlr. by intros ->. Qed.

(** One failed attempt of the loop, by the answer of the give-up rule
    and the time elapsed. *)
Lemma retry_rate_limited_below fuel tries start self prompt call_kwargs w
  e self1 w1 message :
  basic_request self prompt call_kwargs w = (Raise e, self1, w1) →
  exn_message e = Some message → str_in "rate limits" message = true →
  now w - start < max_time →
  retry (S fuel) tries start self prompt call_kwargs w =
    let drawn := random_uniform (expo tries) w1 in
    let seconds := Z.min drawn.1 (max_time - (now w - start)) in
    retry fuel (S tries) start self1 prompt call_kwargs
      (sleep seconds
         (backoff_hdlr world print
            {| d_wait := seconds; d_tries := S tries;
               d_target := "request"; d_kwargs := call_kwargs |}
            drawn.2)).
Proof.
  intros Hreq Hmsg Hin Hbelow. simpl. rewrite Hreq.
  rewrite (giveup_hdlr_rate_limited e message) by done. simpl.
  apply Z.leb_gt in Hbelow. rewrite Hbelow.
  by destruct (random_uniform (expo tries) w1).
Qed.

Lemma retry_rate_limited_ceiling fuel tries start self prompt call_kwargs w
  e self1 w1 message :
  basic_request self prompt call_kwargs w = (Raise e, self1, w1) →
  exn_message e = Some message → str_in "rate limits" message = true →
  max_time ≤ now w - start →
  retry (S fuel) tries start self prompt call_kwargs w =
    (Some (Raise e), self1, w1).
Proof.
  intros Hreq Hmsg Hin Hceiling. simpl. rewrite Hreq.
  rewrite (giveup_hdlr_rate_limited e message) by done. simpl.
  apply Z.leb_le in Hceiling. by rewrite Hceiling.
Qed.

(** What [request] raises when the give-up rule is asked about [e]: [e]
    itself, or the [AttributeError] of the rule when [e] carries no
    message. *)
Lemma retry_other_failure fuel tries start self prompt call_kwargs w
  e self1 w1 :
  basic_request self prompt call_kwargs w = (Raise e, self1, w1) →
  (∀ message, exn_message e = Some message →
              str_in "rate limits" message = false) →
  retry (S fuel) tries start self prompt call_kwargs w =
    (Some (Raise match exn_message e with
                 | Some _ => e
                 | None => Exn AttributeError None
                 end),
     self1, w1).
Proof.
  intros Hreq Hother. simpl. rewrite Hreq.
  destruct (exn_message e) as [message|] eqn:Hmsg.
  - by rewrite (giveup_hdlr_other e message) by auto.
  - by rewrite giveup_hdlr_no_message.
Qed.

(** C4: when a call made by [request] fails with an exception [e] whose
    message contains "rate limits", the call is made again, at the first
    attempt and at every later one that starts below the time ceiling,
    after the notice and the wait (the jittered exponential wait, cut to
    the time that remains), and [e] propagates from the attempt that
    starts with the ceiling reached; when the message of [e] does not
    contain it, [request] raises at once, after this one attempt, without
    notice, wait or further call. *)
Theorem request_give_up_rule fuel self prompt call_kwargs w e self1 w1 :
  basic_request self prompt call_kwargs w = (Raise e, self1, w1) →
  (∀ message,
     exn_message e = Some message →
     str_in "rate limits" message = true →
     let again tries start :=
       let drawn := random_uniform (expo tries) w1 in
       let seconds := Z.min drawn.1 (max_time - (now w - start)) in
       retry fuel (S tries) start self1 prompt call_kwargs
         (sleep seconds
            (backoff_hdlr world print
               {| d_wait := seconds; d_tries := S tries;
                  d_target := "request"; d_kwargs := call_kwargs |}
               drawn.2)) in
     request (S fuel) self prompt call_kwargs w = again 0%nat (now w) ∧
     (∀ tries start,
        now w - start < max_time →
        retry (S fuel) tries start self prompt call_kwargs w
          = again tries start) ∧
     (∀ tries start,
        max_time ≤ now w - start →
        retry (S fuel) tries start self prompt call_kwargs w
          = (Some (Raise e), self1, w1))) ∧
  ((∀ message,
      exn_message e = Some message →
      str_in "rate limits" message = false) →
   ∃ e',
     request (S fuel) self prompt call_kwargs w
       = (Some (Raise e'), self1, w1) ∧
     (∀ tries start,
        retry (S fuel) tries start self prompt call_kwargs w
          = (Some (Raise e'), self1, w1)) ∧
     (is_Some (exn_message e) → e' = e)).
Proof.
  intros Hreq. split.
  - intros message Hmsg Hin again. split; [|split].
    + unfold request. apply (retry_rate_limited_below _ _ _ _ _ _ _ e _ _ message);
        try done. rewrite Z.sub_diag. done.
    + intros tries start Hbelow.
      by apply (retry_rate_limited_below _ _ _ _ _ _ _ e _ _ message).
    + intros tries start Hceiling.
      by apply (retry_rate_limited_ceiling _ _ _ _ _ _ _ e _ _ message).
  - intros Hother.
    exists match exn_message e with
           | Some _ => e
           | None => Exn AttributeError None
           end.
    split; [|split].
    + unfold request. by apply retry_other_failure.
    + intros tries start. by apply retry_other_failure.
    + by intros [message ->].
Qed.


(** C7, amended: at construction the access key and the secret key are
    the explicit argument when one is given and is not the empty
    string, and otherwise the environment variable [VOLC_ACCESSKEY],
    respectively [VOLC_SECRETKEY]; the service domain and the region
    are the explicit argument when one is given and is not the empty
    string, and otherwise a built-in constant; the values are stored in
    the session object, which no call of the adapter changes. *)
Theorem init_maas_resolution endpoint api_ak api_sk api_domain api_region
  overrides os_environ :
  let self := __init__ endpoint api_ak api_sk api_domain api_region
                overrides os_environ in
  ((∀ s, api_ak = Some s → s ≠ "" → ak (maas self) = Some s) ∧
   (api_ak = None ∨ api_ak = Some "" →
    ak (maas self) = os_environ !! "VOLC_ACCESSKEY")) ∧
  ((∀ s, api_sk = Some s → s ≠ "" → sk (maas self) = Some s) ∧
   (api_sk = None ∨ api_sk = Some "" →
    sk (maas self) = os_environ !! "VOLC_SECRETKEY")) ∧
  ((∀ s, api_domain = Some s → s ≠ "" → domain (maas self) = s) ∧
   (api_domain = None ∨ api_domain = Some "" →
    domain (maas self) = "maas-api.ml-platform-cn-beijing.volces.com")) ∧
  ((∀ s, api_region = Some s → s ≠ "" → region (maas self) = s) ∧
   (api_region = None ∨ api_region = Some "" →
    region (maas self) = "cn-beijing")) ∧
  (∀ fuel prompt only_completed return_sorted call_kwargs w,
     maas (basic_request self prompt call_kwargs w).1.2 = maas self ∧
     maas (request fuel self prompt call_kwargs w).1.2 = maas self ∧
     maas (__call__ fuel self prompt only_completed return_sorted
             call_kwargs w).1.2 = maas self).
Proof.
  intros self. simpl.
  assert (∀ (a : option string) b s, a = Some s → s ≠ "" →
            or_else a b = Some s) as Hgiven.
  { intros a b s -> Hs. simpl. by destruct (decide (s = "")). }
  assert (∀ (a : option string) b, a = None ∨ a = Some "" →
            or_else a b = b) as Hmissing.
  { by intros a b [-> | ->]. }
  assert (∀ (a : option string) b s, a = Some s → s ≠ "" →
            or_str a b = s) as Hgiven_str.
  { intros a b s -> Hs. simpl. by destruct (decide (s = "")). }
  assert (∀ (a : option string) b, a = None ∨ a = Some "" →
            or_str a b = b) as Hmissing_str.
  { by intros a b [-> | ->]. }
  repeat split.
  - by apply Hgiven.
  - by apply Hmissing.
  - by apply Hgiven.
  - by apply Hmissing.
  - by apply Hgiven_str.
  - by apply Hmissing_str.
  - by apply Hgiven_str.
  - by apply Hmissing_str.
  - apply basic_request_same_configuration.
  - apply (retry_same_configuration fuel).
  - apply (retry_same_configuration fuel).
Qed.

End CallFacts.

(** C7 as stated fails on the code: with no argument and an empty
    environment the domain and the region are still resolved, to the
    built-in constants; and an explicit empty access key is passed over
    for the environment variable. *)
Lemma init_maas_counterexample :
  _init_maas None None None None ∅ =
    {| domain := "maas-api.ml-platform-cn-beijing.volces.com";
       region := "cn-beijing"; ak := None; sk := None |} ∧
  ak (_init_maas (Some "") None None None {[ "VOLC_ACCESSKEY" := "AK-env" ]})
    = Some "AK-env".
Proof. split; reflexivity. Qed.

(** ** Reaching the ceiling

    When the service keeps answering with a rate-limit failure and every
    remote call takes time, the retries stop: [request] raises the last
    failure once the time elapsed has reached the ceiling, after at least
    two attempts. *)
Section Ceiling.

Context {world : Type}.
Variable maas_chat :
  MaasService → string → Request → world → result Response * world.
Variable now : world → Z.
Variable sleep : Z → world → world.
Variable random_uniform : Z → world → Z * world.
Variable print : backoff_details → world → world.

Hypothesis chat_rate_limited : ∀ svc endpoint req w,
  ∃ message w',
    maas_chat svc endpoint req w
      = (Raise (Exn MaasException (Some message)), w') ∧
    str_in "rate limits" message = true ∧
    now w < now w'.
Hypothesis random_uniform_clock : ∀ value w,
  now w ≤ now (random_uniform value w).2.
Hypothesis print_clock : ∀ details w, now w ≤ now (print details w).
Hypothesis sleep_clock : ∀ seconds w, now w ≤ now (sleep seconds w).

Local Abbreviation retry :=
  (retry world maas_chat now sleep random_uniform print).
Local Abbreviation request :=
  (request world maas_chat now sleep random_uniform print).



End Ceiling.

(** ** The calls on the scripted world *)

Lemma basic_request_success_witness :
  let self := __init__ "ep" None None None None [] ∅ in
  let w := {| clock := 0; replies := [completion "hi"]; stdout := [] |} in
  let run :=
    basic_request script_world (script_chat 100) self "hello"
      [("top_k", VInt 5)] w in
  run.1.1 = Return ["hi"] ∧
  ∃ params response entry,
    script_chat 100 (maas self) (endpoint_id self)
      {| parameters := params;
         messages := [ {| role := USER; content := "hello" |} ] |} w
      = (Return response, run.2) ∧
    ["hi"] = [content (message (choice response))] ∧
    history run.1.2 = history self ++ [entry] ∧
    length (history run.1.2) = S (length (history self)) ∧
    last (history run.1.2) = Some entry ∧
    h_prompt entry = "hello" ∧
    hr_choices (h_response entry) = ["hi"].
Proof.
  intros self w run. split; [reflexivity|].
  apply (basic_request_success (script_chat 100) self "hello"
           [("top_k", VInt 5)] w ["hi"] run.1.2 run.2).
  reflexivity.
Defined.

Lemma basic_request_failure_witness :
  let self := __init__ "ep" None None None None [] ∅ in
  let w := {| clock := 0; replies := [bad_credentials]; stdout := [] |} in
  ∃ self',
    basic_request script_world (script_chat 100) self "hello" [] w =
      (Raise (Exn MaasException (Some "invalid access key")), self',
       {| clock := 100; replies := []; stdout := [] |}) ∧
    history self' = history self ∧ self' = self.
Proof.
  intros self w.
  apply (basic_request_failure (script_chat 100) self "hello" [] w
           default_kwargs).
  - vm_compute. reflexivity.
  - reflexivity.
Defined.

Lemma request_give_up_rule_witness :
  let self := __init__ "ep" None None None None [] ∅ in
  let request :=
    request script_world (script_chat 100) script_now script_sleep
      script_random_uniform script_print in
  let retry :=
    retry script_world (script_chat 100) script_now script_sleep
      script_random_uniform script_print in
  (let w := {| clock := 0; replies := [rate_limited; completion "hi"];
               stdout := [] |} in
   request 2%nat self "hello" [] w =
     retry 1%nat 1%nat 0 self "hello" []
       {| clock := 1100; replies := [completion "hi"];
          stdout := [ {| d_wait := 1000; d_tries := 1;
                         d_target := "request"; d_kwargs := [] |} ] |}) ∧
  (let w := {| clock := 0; replies := [bad_credentials; completion "hi"];
               stdout := [] |} in
   request 2%nat self "hello" [] w =
     (Some (Raise (Exn MaasException (Some "invalid access key"))), self,
      {| clock := 100; replies := [completion "hi"]; stdout := [] |})).
Proof.
  intros self request retry. split.
  - intros w.
    destruct (request_give_up_rule (script_chat 100) script_now script_sleep
                script_random_uniform script_print 1 self "hello" [] w
                (Exn MaasException (Some "request exceeds rate limits")) self
                {| clock := 100; replies := [completion "hi"]; stdout := [] |}
                eq_refl) as [Hlimited _].
    destruct (Hlimited "request exceeds rate limits" eq_refl eq_refl)
      as [Hfirst _].
    exact Hfirst.
  - intros w.
    destruct (request_give_up_rule (script_chat 100) script_now script_sleep
                script_random_uniform script_print 1 self "hello" [] w
                (Exn MaasException (Some "invalid access key")) self
                {| clock := 100; replies := [completion "hi"]; stdout := [] |}
                eq_refl) as [_ Hother].
    destruct Hother as (e' & Hrun & _ & Hsame).
    { intros message [= <-]. reflexivity. }
    assert (e' = Exn MaasException (Some "invalid access key")) as <-
      by (apply Hsame; by eexists).
    exact Hrun.
Defined.

Lemma init_maas_resolution_witness :
  let self :=
    __init__ "ep" (Some "AK") None (Some "") (Some "eu") []
      {[ "VOLC_SECRETKEY" := "SK-env" ]} in
  ak (maas self) = Some "AK" ∧
  sk (maas self) = Some "SK-env" ∧
  domain (maas self) = "maas-api.ml-platform-cn-beijing.volces.com" ∧
  region (maas self) = "eu".
Proof.
  intros self.
  destruct (init_maas_resolution (script_chat 100) script_now script_sleep
              script_random_uniform script_print "ep" (Some "AK") None
              (Some "") (Some "eu") [] {[ "VOLC_SECRETKEY" := "SK-env" ]})
    as ([Hak _] & [_ Hsk] & [_ Hdomain] & [Hregion _] & _).
  split; [|split; [|split]].
  - by apply Hak.
  - etrans; [apply Hsk; by left | reflexivity].
  - apply Hdomain. by right.
  - by apply Hregion.
Defined.


(** * Further properties *)

(** ** Option normalisation: the returned keys and values *)

Lemma merged_lookup_default (self : VolcEngineMaaS) (parameters : pydict)
  (k : string) :
  k ∈ dom (kwargs self) → is_Some (merged self parameters !! k).
Proof.
  intros Hk. apply elem_of_dom. unfold merged. rewrite dom_union.
  apply elem_of_union. by right.
Qed.

(** X1: the keys returned are exactly the default-options keys other than
    [n]: none is ever missing from the parameters of a request. *)
Theorem prepare_params_keys_exact (self : VolcEngineMaaS)
  (parameters : pydict) (out : gmap string pyval) :
  _prepare_params self parameters = Return out →
  dom out = dom (kwargs self) ∖ {["n"]}.
Proof.
  intros Hout. apply set_eq. intros k.
  rewrite elem_of_difference, elem_of_singleton. split.
  - intros Hk%elem_of_dom. by apply (prepare_params_dom _ _ _ _ Hout).
  - intros [Hk Hn]. apply elem_of_dom.
    destruct (prepare_params_inv _ _ _ Hout) as (params & Hadj & ->).
    rewrite filter_dom_lookup by done.
    destruct (merged_lookup_default self parameters k Hk) as [v Hv].
    destruct Hadj as [-> | ->].
    + rewrite lookup_delete_ne by done. by eexists.
    + destruct (decide (k = "temperature")) as [->|Ht].
      * rewrite lookup_insert_eq. by eexists.
      * rewrite lookup_insert_ne, lookup_delete_ne by done. by eexists.
Qed.

Lemma prepare_params_keys_exact_witness :
  let self := __init__ "ep" None None None None [("n", VInt 3)] ∅ in
  let out := <["top_k" := VInt 5]> default_kwargs in
  _prepare_params self [("user", VStr "me"); ("top_k", VInt 5)]
    = Return out ∧
  dom out = dom (kwargs self) ∖ {["n"]}.
Proof.
  intros self out.
  assert (_prepare_params self [("user", VStr "me"); ("top_k", VInt 5)]
          = Return out) as Hrun by (vm_compute; reflexivity).
  split; [exact Hrun|].
  exact (prepare_params_keys_exact self _ out Hrun).
Defined.

(** The renamed mapping at a key that the renaming does not touch. *)
Lemma renamed_lookup_supplied (l : pydict) (k : string) (v : pyval) :
  NoDup l.*1 → k ≠ "max_tokens" → k ≠ "max_output_tokens" →
  (k, v) ∈ l → renamed l !! k = Some v.
Proof.
  intros Hnodup Hk1 Hk2.
  induction l as [|[k2 v2] l IH] using rev_ind; intros Hin.
  - by apply elem_of_nil in Hin.
  - rewrite fmap_app in Hnodup. apply NoDup_app in Hnodup as (Hl & Hfresh & _).
    rewrite renamed_snoc.
    apply elem_of_app in Hin as [Hin | Hin%list_elem_of_singleton].
    + assert (k2 ≠ k) as Hne.
      { intros ->. apply (Hfresh k).
        - by apply (list_elem_of_fmap_2 fst _ (k, v)).
        - simpl. apply list_elem_of_here. }
      rewrite lookup_insert_ne; [by apply IH|].
      destruct (decide (k2 = "max_tokens")) as [->|Hk2'].
      * by rewrite mapped_key_max_tokens.
      * by rewrite mapped_key_other.
    + injection Hin as -> ->. rewrite mapped_key_other by done.
      apply lookup_insert_eq.
Qed.

Lemma renamed_lookup_missing (l : pydict) (k : string) :
  k ≠ "max_output_tokens" → k ∉ l.*1 → renamed l !! k = None.
Proof.
  intros Hk Hnotin. destruct (renamed l !! k) eqn:E; [|done].
  destruct (renamed_lookup_is_Some l k) as (k0 & Hin & Hmap); [by eexists|].
  destruct (decide (k0 = "max_tokens")) as [->|Hne].
  - by rewrite mapped_key_max_tokens in Hmap.
  - rewrite mapped_key_other in Hmap by done. by subst.
Qed.

(** X2: for a default-options key outside [n], [temperature] and the two
    token names, the returned value is the caller's when the caller
    supplies the key, and the default otherwise. *)
Theorem prepare_params_override (self : VolcEngineMaaS)
  (parameters : pydict) (out : gmap string pyval) (k : string) :
  _prepare_params self parameters = Return out →
  NoDup parameters.*1 →
  k ∈ dom (kwargs self) →
  k ≠ "n" → k ≠ "temperature" →
  k ≠ "max_tokens" → k ≠ "max_output_tokens" →
  (∀ v, (k, v) ∈ parameters → out !! k = Some v) ∧
  (k ∉ parameters.*1 → out !! k = kwargs self !! k).
Proof.
  intros Hout Hnodup Hdom Hn Ht Hk1 Hk2.
  rewrite (prepare_params_lookup _ _ _ k Hout) by done.
  unfold merged. split.
  - intros v Hin. apply lookup_union_Some_l.
    by apply renamed_lookup_supplied.
  - intros Hnotin. apply lookup_union_r. by apply renamed_lookup_missing.
Qed.

Lemma prepare_params_override_witness :
  let self := __init__ "ep" None None None None [] ∅ in
  let out := <["top_k" := VInt 5]> default_kwargs in
  _prepare_params self [("user", VStr "me"); ("top_k", VInt 5)]
    = Return out ∧
  out !! "top_k" = Some (VInt 5) ∧
  out !! "top_p" = Some (VFloat float_0_9).
Proof.
  intros self out.
  assert (_prepare_params self [("user", VStr "me"); ("top_k", VInt 5)]
          = Return out) as Hrun by (vm_compute; reflexivity).
  assert (NoDup [("user", VStr "me"); ("top_k", VInt 5)].*1) as Hnodup.
  { apply NoDup_ListNoDup. repeat constructor; simpl; intuition discriminate. }
  assert ("top_k" ∈ dom (kwargs self)) as Hk.
  { apply elem_of_dom. eexists. vm_compute. reflexivity. }
  assert ("top_p" ∈ dom (kwargs self)) as Hp.
  { apply elem_of_dom. eexists. vm_compute. reflexivity. }
  split; [exact Hrun|]. split.
  - apply (prepare_params_override self _ out "top_k" Hrun Hnodup Hk);
      [discriminate..|].
    apply list_elem_of_further, list_elem_of_here.
  - etrans.
    + apply (prepare_params_override self _ out "top_p" Hrun Hnodup Hp);
        [discriminate..|].
      simpl. intros Hin.
      repeat (apply elem_of_cons in Hin as [Hin|Hin]; [discriminate|]).
      by apply elem_of_nil in Hin.
    + vm_compute. reflexivity.
Defined.

(** ** Option normalisation: temperature and failures *)


Lemma prepare_params_above_one (self : VolcEngineMaaS)
  (parameters : pydict) (nv t : pyval) :
  merged self parameters !! "n" = Some nv → py_gt_one nv = Return true →
  merged self parameters !! "temperature" = Some t →
  _prepare_params self parameters =
    Return (filter (λ kv, kv.1 ∈ dom (kwargs self))
              (if py_eq_zero t
               then <["temperature" := VFloat float_0_7]>
                      (delete "n" (merged self parameters))
               else delete "n" (merged self parameters))).
Proof.
  unfold _prepare_params. fold (merged self parameters). intros -> Hgt Ht.
  simpl. rewrite lookup_delete_ne by done. rewrite Ht.
  destruct nv; simpl in *; try discriminate;
    try (injection Hgt as ->); by destruct (py_eq_zero t).
Qed.




(** X4: with a merged [n] above 1, the temperature that is returned is never
    equal to zero. *)
Theorem prepare_params_temperature_nonzero (self : VolcEngineMaaS)
  (parameters : pydict) (out : gmap string pyval) (nv t : pyval) :
  _prepare_params self parameters = Return out →
  merged self parameters !! "n" = Some nv →
  py_gt_one nv = Return true →
  out !! "temperature" = Some t →
  py_eq_zero t = false.
Proof.
  intros Hout Hn Hgt Ht.
  destruct (prepare_params_dom _ _ _ "temperature" Hout) as [Hdom _];
    [by eexists|].
  destruct (merged_lookup_default self parameters _ Hdom) as [t0 Ht0].
  rewrite (prepare_params_above_one _ _ nv t0 Hn Hgt Ht0) in Hout.
  injection Hout as <-. rewrite filter_dom_lookup in Ht by done.
  destruct (py_eq_zero t0) eqn:Hzero.
  - rewrite lookup_insert_eq in Ht. by injection Ht as <-.
  - rewrite lookup_delete_ne in Ht by done. congruence.
Qed.

Lemma prepare_params_temperature_nonzero_witness :
  let self := __init__ "ep" None None None None [] ∅ in
  let parameters :=
    [("n", VFloat (S754_finite false 6755399441055744 (-52)));
     ("temperature", VBool false)] in
  _prepare_params self parameters = Return default_kwargs ∧
  py_eq_zero (VFloat float_0_7) = false.
Proof.
  intros self parameters.
  assert (_prepare_params self parameters = Return default_kwargs) as Hrun
    by (vm_compute; reflexivity).
  split; [exact Hrun|].
  apply (prepare_params_temperature_nonzero self parameters default_kwargs
           (VFloat (S754_finite false 6755399441055744 (-52)))
           (VFloat float_0_7) Hrun);
    vm_compute; reflexivity.
Defined.


(** X6: when no option of the caller is [n] or a default-options key (under
    its new name, for [max_tokens]) and the defaults have no [n], the
    result is the default options themselves: unknown options are
    dropped, and an empty mapping gives the defaults. *)
Theorem prepare_params_unknown_only (self : VolcEngineMaaS)
  (parameters : pydict) :
  kwargs self !! "n" = None →
  "max_output_tokens" ∉ dom (kwargs self) →
  Forall (λ kv, kv.1 ≠ "n" ∧ kv.1 ∉ dom (kwargs self)) parameters →
  _prepare_params self parameters = Return (kwargs self).
Proof.
  intros Hn Hmot Hall.
  assert (∀ k, k ∈ dom (kwargs self) ∨ k = "n" → renamed parameters !! k = None)
    as Hnone.
  { intros k Hk. destruct (renamed parameters !! k) eqn:E; [|done].
    destruct (renamed_lookup_is_Some parameters k) as (k0 & Hin & Hmap);
      [by eexists|].
    apply list_elem_of_fmap in Hin as ([k1 v1] & -> & Hin). simpl in Hmap.
    rewrite Forall_forall in Hall. destruct (Hall _ Hin) as [Hk1 Hk2].
    simpl in Hk1, Hk2.
    destruct (decide (k1 = "max_tokens")) as [->|Hne].
    - rewrite mapped_key_max_tokens in Hmap. subst k.
      destruct Hk as [Hk|Hk]; [done|discriminate].
    - rewrite mapped_key_other in Hmap by done. subst k.
      destruct Hk as [Hk|Hk]; done. }
  rewrite prepare_params_no_n.
  - f_equal. apply map_eq. intros k.
    destruct (kwargs self !! k) as [v|] eqn:Hk.
    + assert (k ∈ dom (kwargs self)) as Hdom by (apply elem_of_dom; eauto).
      rewrite filter_dom_lookup by done.
      assert (k ≠ "n") as Hkn by congruence.
      rewrite lookup_delete_ne by done. unfold merged.
      rewrite lookup_union_r by (apply Hnone; by left). done.
    + apply map_lookup_filter_None. right. intros v _. simpl.
      by apply not_elem_of_dom.
  - unfold merged. rewrite lookup_union_r by (apply Hnone; by right). done.
Qed.

Lemma prepare_params_unknown_only_witness :
  let self := __init__ "ep" None None None None [("top_k", VInt 20)] ∅ in
  _prepare_params self [("max_tokens", VInt 100); ("stop", VList [VStr "."])]
    = Return (kwargs self).
Proof.
  intros self. apply prepare_params_unknown_only.
  - vm_compute. reflexivity.
  - apply not_elem_of_dom. vm_compute. reflexivity.
  - repeat constructor; simpl; try discriminate;
      apply not_elem_of_dom; vm_compute; reflexivity.
Defined.


(** ** Construction *)

Lemma dict_update_snoc (d : gmap string pyval) (other : pydict)
  (k : string) (v : pyval) :
  dict_update d (other ++ [(k, v)]) = <[k := v]> (dict_update d other).
Proof. unfold dict_update. by rewrite foldl_app. Qed.

Lemma dict_update_lookup_missing (d : gmap string pyval) (other : pydict)
  (k : string) :
  k ∉ other.*1 → dict_update d other !! k = d !! k.
Proof.
  induction other as [|[k2 v2] other IH] using rev_ind; intros Hk; [done|].
  rewrite fmap_app in Hk. rewrite dict_update_snoc.
  rewrite lookup_insert_ne.
  - apply IH. intros Hin. apply Hk, elem_of_app. by left.
  - intros ->. apply Hk, elem_of_app. right. apply list_elem_of_here.
Qed.

Lemma dict_update_lookup_supplied (d : gmap string pyval) (other : pydict)
  (k : string) (v : pyval) :
  NoDup other.*1 → (k, v) ∈ other → dict_update d other !! k = Some v.
Proof.
  induction other as [|[k2 v2] other IH] using rev_ind; intros Hnodup Hin.
  - by apply elem_of_nil in Hin.
  - rewrite fmap_app in Hnodup. apply NoDup_app in Hnodup as (Hl & Hfresh & _).
    rewrite dict_update_snoc.
    apply elem_of_app in Hin as [Hin | Hin%list_elem_of_singleton].
    + rewrite lookup_insert_ne; [by apply IH|].
      intros ->. apply (Hfresh k).
      * by apply (list_elem_of_fmap_2 fst _ (k, v)).
      * simpl. apply list_elem_of_here.
    + injection Hin as -> ->. apply lookup_insert_eq.
Qed.

Lemma dict_update_dom_eq (d : gmap string pyval) (other : pydict) :
  dom (dict_update d other) = dom d ∪ list_to_set other.*1.
Proof.
  induction other as [|[k2 v2] other IH] using rev_ind.
  - simpl. by rewrite union_empty_r_L.
  - rewrite dict_update_snoc, dom_insert_L, IH, fmap_app, list_to_set_app_L.
    simpl. apply set_eq. intros k.
    rewrite !elem_of_union, !elem_of_singleton, elem_of_empty. tauto.
Qed.

(** X7: after construction the default options have the six built-in keys
    and the keys of the overrides, and nothing else. *)
Theorem init_kwargs_keys (endpoint : string)
  (api_ak api_sk api_domain api_region : option string)
  (overrides : pydict) (os_environ : environ) :
  dom (kwargs (__init__ endpoint api_ak api_sk api_domain api_region
                 overrides os_environ)) =
  {[ "max_new_tokens"; "min_new_tokens"; "temperature"; "top_p"; "top_k";
     "max_prompt_tokens" ]} ∪ list_to_set overrides.*1.
Proof.
  simpl. rewrite dict_update_dom_eq.
  assert (dom default_kwargs
          = ({[ "max_new_tokens"; "min_new_tokens"; "temperature"; "top_p";
                "top_k"; "max_prompt_tokens" ]} : gset string)) as ->; [|done].
  unfold default_kwargs. rewrite !dom_insert_L, dom_empty_L.
  apply set_eq. intros k.
  rewrite !elem_of_union, !elem_of_singleton, elem_of_empty. tauto.
Qed.

(** X8: an override given at construction replaces the built-in default of
    its name, under that very name ([max_tokens] is not renamed here);
    the built-in defaults that are not overridden keep their values. *)
Theorem init_kwargs_override (endpoint : string)
  (api_ak api_sk api_domain api_region : option string)
  (overrides : pydict) (os_environ : environ) (k : string) :
  let self := __init__ endpoint api_ak api_sk api_domain api_region
                overrides os_environ in
  NoDup overrides.*1 →
  (∀ v, (k, v) ∈ overrides → kwargs self !! k = Some v) ∧
  (k ∉ overrides.*1 → kwargs self !! k = default_kwargs !! k).
Proof.
  intros self Hnodup. simpl. split.
  - intros v Hin. by apply dict_update_lookup_supplied.
  - apply dict_update_lookup_missing.
Qed.

Lemma init_kwargs_override_witness :
  let self :=
    __init__ "ep" None None None None
      [("temperature", VFloat float_0_0); ("max_tokens", VInt 64)] ∅ in
  kwargs self !! "temperature" = Some (VFloat float_0_0) ∧
  kwargs self !! "max_tokens" = Some (VInt 64) ∧
  kwargs self !! "top_k" = Some (VInt 0).
Proof.
  intros self.
  assert (NoDup [("temperature", VFloat float_0_0);
                 ("max_tokens", VInt 64)].*1) as Hnodup.
  { apply NoDup_ListNoDup. repeat constructor; simpl; intuition discriminate. }
  split; [|split].
  - apply (init_kwargs_override "ep" None None None None _ ∅ "temperature"
             Hnodup). apply list_elem_of_here.
  - apply (init_kwargs_override "ep" None None None None _ ∅ "max_tokens"
             Hnodup). apply list_elem_of_further, list_elem_of_here.
  - etrans.
    + apply (init_kwargs_override "ep" None None None None _ ∅ "top_k"
               Hnodup).
      simpl. intros Hin.
      repeat (apply elem_of_cons in Hin as [Hin|Hin]; [discriminate|]).
      by apply elem_of_nil in Hin.
    + vm_compute. reflexivity.
Defined.

(** X9: the session is never given an empty domain or region: an absent or
    empty argument is replaced by the built-in value. *)
Theorem init_maas_domain_region_nonempty
  (api_ak api_sk api_domain api_region : option string)
  (os_environ : environ) :
  let session := _init_maas api_ak api_sk api_domain api_region os_environ in
  domain session ≠ "" ∧ region session ≠ "".
Proof.
  simpl. split.
  - destruct api_domain as [s|]; simpl; [|discriminate].
    destruct (decide (s = "")); [discriminate|done].
  - destruct api_region as [s|]; simpl; [|discriminate].
    destruct (decide (s = "")); [discriminate|done].
Qed.

(** ** The give-up rule *)






(** ** Calls: what reaches the service and what reaches the history *)

Section CallExtras.

Context {world : Type}.
Variable maas_chat :
  MaasService → string → Request → world → result Response * world.
Variable now : world → Z.
Variable sleep : Z → world → world.
Variable random_uniform : Z → world → Z * world.
Variable print : backoff_details → world → world.

Local Abbreviation basic_request := (basic_request world maas_chat).
Local Abbreviation retry :=
  (retry world maas_chat now sleep random_uniform print).
Local Abbreviation request :=
  (request world maas_chat now sleep random_uniform print).
Local Abbreviation __call__ :=
  (__call__ world maas_chat now sleep random_uniform print).

(** The history record of a call that returned [ret]. *)
Local Abbreviation record_of prompt call_kwargs ret :=
  {| h_prompt := prompt;
     h_response := {| hr_prompt := prompt; hr_choices := ret |};
     h_kwargs := call_kwargs;
     h_raw_kwargs := call_kwargs |}.

(** X11: a call whose merged [n] is a string fails in the normalisation,
    before anything is sent: [basic_request] raises the [TypeError] and
    the adapter and the world are as they were. *)
Theorem basic_request_bad_n self prompt call_kwargs w s :
  merged self call_kwargs !! "n" = Some (VStr s) →
  basic_request self prompt call_kwargs w = (Raise (Exn TypeError None), self, w).
Proof.
  intros Hn. apply basic_request_prepare_raises.
  by apply (prepare_params_type_error _ _ s).
Qed.

(** X12: through [request] a call whose merged [n] is a string raises
    the [AttributeError] of the give-up rule, not the [TypeError] of the
    normalisation, which has no message; nothing is sent, printed or
    waited for. *)
Theorem request_bad_n fuel self prompt call_kwargs w s :
  merged self call_kwargs !! "n" = Some (VStr s) →
  request (S fuel) self prompt call_kwargs w
    = (Some (Raise (Exn AttributeError None)), self, w).
Proof.
  intros Hn. unfold request.
  rewrite (retry_other_failure maas_chat now sleep random_uniform print
             fuel 0 (now w) self prompt call_kwargs w
             (Exn TypeError None) self w).
  - done.
  - apply basic_request_prepare_raises.
    by apply (prepare_params_type_error _ _ s).
  - by intros message [=].
Qed.

(** The history after one [basic_request]: the record of the call is
    appended when it returned, nothing when it raised. *)
Lemma basic_request_history self prompt call_kwargs w r self' w' :
  basic_request self prompt call_kwargs w = (r, self', w') →
  history self' =
    history self ++
      match r with
      | Return ret => [record_of prompt call_kwargs ret]
      | Raise _ => []
      end.
Proof.
  intros [(e & -> & ->) | (params & response & _ & _ & -> & ->)]
    %basic_request_inv; simpl.
  - by rewrite app_nil_r.
  - done.
Qed.

(** X13: two calls in a row: the records of the calls that returned are
    appended in the order of the calls, behind what was there; a call
    that raised leaves nothing. *)
Theorem basic_request_twice self prompt1 kwargs1 w r1 self1 w1
  prompt2 kwargs2 r2 self2 w2 :
  basic_request self prompt1 kwargs1 w = (r1, self1, w1) →
  basic_request self1 prompt2 kwargs2 w1 = (r2, self2, w2) →
  history self2 =
    history self ++
      match r1 with
      | Return ret => [record_of prompt1 kwargs1 ret]
      | Raise _ => []
      end ++
      match r2 with
      | Return ret => [record_of prompt2 kwargs2 ret]
      | Raise _ => []
      end.
Proof.
  intros H1%basic_request_history H2%basic_request_history.
  by rewrite H2, H1, app_assoc.
Qed.

Lemma retry_history fuel tries start self prompt call_kwargs w o self' w' :
  retry fuel tries start self prompt call_kwargs w = (o, self', w') →
  match o with
  | Some (Return ret) =>
      self' = history_append self (record_of prompt call_kwargs ret)
  | _ => self' = self
  end.
Proof.
  revert tries self w. induction fuel as [|fuel IH]; intros tries self w; simpl.
  - by intros [= <- <- <-].
  - destruct (basic_request self prompt call_kwargs w) as [[r self1] w1] eqn:E.
    apply basic_request_inv in E
      as [(e & -> & ->) | (params & response & _ & _ & -> & ->)].
    + destruct (giveup_hdlr e) as [giveup|e'].
      * destruct (giveup || (max_time <=? now w - start)).
        -- by intros [= <- <- <-].
        -- destruct (random_uniform _ w1) as [value w2]. apply IH.
      * by intros [= <- <- <-].
    + by intros [= <- <- <-].
Qed.

(** X14: however many attempts [request] makes, the failed ones leave no
    trace in the adapter: when [request] (or [__call__]) returns, exactly
    the record of the call, with the returned list as its choices, has
    been appended; when it raises, or is still retrying, the adapter is
    as it was. *)
Theorem request_history fuel self prompt only_completed return_sorted
  call_kwargs w :
  let effect (run : option (result (list string)) * VolcEngineMaaS * world) :=
    match run.1.1 with
    | Some (Return ret) =>
        run.1.2 = history_append self (record_of prompt call_kwargs ret)
    | _ => run.1.2 = self
    end in
  effect (request fuel self prompt call_kwargs w) ∧
  effect (__call__ fuel self prompt only_completed return_sorted
            call_kwargs w).
Proof.
  intros effect. unfold effect, __call__, request. split.
  all: destruct (retry fuel 0 (now w) self prompt call_kwargs w)
         as [[o self'] w'] eqn:E; simpl;
       exact (retry_history _ _ _ _ _ _ _ _ _ _ E).
Qed.

End CallExtras.

(** X15: [basic_request] consults the service once, with the request made of
    the normalised options and the single user message, addressed to the
    endpoint of the adapter: two services that answer this one request
    alike give the same run. *)
Theorem basic_request_one_call {world : Type}
  (chat1 chat2 :
     MaasService → string → Request → world → result Response * world)
  (self : VolcEngineMaaS) (prompt : string) (call_kwargs : pydict)
  (w : world) :
  (∀ params,
     _prepare_params self call_kwargs = Return params →
     chat1 (maas self) (endpoint_id self)
       {| parameters := params;
          messages := [ {| role := USER; content := prompt |} ] |} w
     = chat2 (maas self) (endpoint_id self)
         {| parameters := params;
            messages := [ {| role := USER; content := prompt |} ] |} w) →
  basic_request world chat1 self prompt call_kwargs w
    = basic_request world chat2 self prompt call_kwargs w.
Proof.
  intros Hsame. unfold basic_request.
  destruct (_prepare_params self call_kwargs) as [params|e]; [|done].
  by rewrite (Hsame params).
Qed.

Lemma basic_request_bad_n_witness :
  let self := __init__ "ep" None None None None [] ∅ in
  let w := {| clock := 0; replies := [completion "hi"]; stdout := [] |} in
  basic_request script_world (script_chat 100) self "hello"
    [("n", VStr "2")] w
  = (Raise (Exn TypeError None), self, w).
Proof.
  intros self w.
  apply (basic_request_bad_n (script_chat 100) self "hello"
           [("n", VStr "2")] w "2").
  vm_compute. reflexivity.
Defined.

Lemma request_bad_n_witness :
  let self := __init__ "ep" None None None None [] ∅ in
  let w := {| clock := 0; replies := [completion "hi"]; stdout := [] |} in
  request script_world (script_chat 100) script_now script_sleep
    script_random_uniform script_print 3 self "hello" [("n", VStr "2")] w
  = (Some (Raise (Exn AttributeError None)), self, w).
Proof.
  intros self w.
  apply (request_bad_n (script_chat 100) script_now script_sleep
           script_random_uniform script_print 2 self "hello"
           [("n", VStr "2")] w "2").
  vm_compute. reflexivity.
Defined.

Lemma basic_request_twice_witness :
  let self := __init__ "ep" None None None None [] ∅ in
  let w := {| clock := 0;
              replies := [completion "one"; bad_credentials];
              stdout := [] |} in
  let run1 :=
    basic_request script_world (script_chat 100) self "first" [] w in
  let run2 :=
    basic_request script_world (script_chat 100) run1.1.2 "second"
      [("top_k", VInt 5)] run1.2 in
  history run2.1.2 =
    [ {| h_prompt := "first";
         h_response := {| hr_prompt := "first"; hr_choices := ["one"] |};
         h_kwargs := []; h_raw_kwargs := [] |} ].
Proof.
  intros self w run1 run2.
  apply (basic_request_twice (script_chat 100) self "first" [] w
           (Return ["one"]) run1.1.2 run1.2 "second" [("top_k", VInt 5)]
           (Raise (Exn MaasException (Some "invalid access key")))
           run2.1.2 run2.2);
    reflexivity.
Defined.

Lemma basic_request_one_call_witness :
  let self := __init__ "ep" None None None None [] ∅ in
  let w := {| clock := 0; replies := []; stdout := [] |} in
  basic_request script_world (script_chat 100) self "hello" [] w
  = basic_request script_world
      (λ svc endpoint req w,
         if decide (endpoint = "ep")
         then script_chat 100 svc endpoint req w
         else busy_chat 100 svc endpoint req w)
      self "hello" [] w.
Proof.
  intros self w.
  apply (basic_request_one_call (script_chat 100) _ self "hello" [] w).
  intros params _. reflexivity.
Defined.

(** ** Calls do not leak options *)

Lemma prepare_params_kwargs_only (self self' : VolcEngineMaaS)
  (parameters : pydict) :
  kwargs self' = kwargs self →
  _prepare_params self' parameters = _prepare_params self parameters.
Proof. unfold _prepare_params. by intros ->. Qed.

(** X16: the options of one call never reach a later one: after any
    [basic_request], [request] or [__call__], whatever its options and
    its outcome, every options mapping is normalised as it was before. *)
Theorem calls_keep_normalisation {world : Type}
  (maas_chat :
     MaasService → string → Request → world → result Response * world)
  (now : world → Z) (sleep : Z → world → world)
  (random_uniform : Z → world → Z * world)
  (print : backoff_details → world → world)
  (fuel : nat) (self : VolcEngineMaaS) (prompt : string)
  (only_completed return_sorted : bool) (call_kwargs : pydict) (w : world)
  (later : pydict) :
  _prepare_params
    (basic_request world maas_chat self prompt call_kwargs w).1.2 later
    = _prepare_params self later ∧
  _prepare_params
    (request world maas_chat now sleep random_uniform print fuel self prompt
       call_kwargs w).1.2 later
    = _prepare_params self later ∧
  _prepare_params
    (__call__ world maas_chat now sleep random_uniform print fuel self prompt
       only_completed return_sorted call_kwargs w).1.2 later
    = _prepare_params self later.
Proof.
  split; [|split]; apply prepare_params_kwargs_only.
  - apply (basic_request_same_configuration maas_chat).
  - apply (retry_same_configuration maas_chat now sleep random_uniform print).
  - apply (retry_same_configuration maas_chat now sleep random_uniform print).
Qed.

Lemma prepare_params_max_tokens_default_witness :
  let self :=
    __init__ "ep" None None None None [("max_tokens", VInt 50)] ∅ in
  let out := <["max_tokens" := VInt 50]> default_kwargs in
  _prepare_params self [("max_tokens", VInt 100)] = Return out ∧
  out !! "max_tokens" = Some (VInt 50).
Proof.
  intros self out.
  assert (_prepare_params self [("max_tokens", VInt 100)] = Return out)
    as Hrun by (vm_compute; reflexivity).
  split; [exact Hrun|].
  etrans; [exact (prepare_params_max_tokens_default self _ out Hrun)|].
  vm_compute. reflexivity.
Defined.
